(** * UnityJS.cpp: the JNI bridge of CBridgePlugin, as a state-passing model

    The file under study is glue between a Java virtual machine, the Unity
    engine and a managed deliverer of messages.  It owns six file-scope
    variables and otherwise only talks to its surroundings: every
    [env->...], [vm->...], [unity_graphics->...] and every call through the
    registered function pointer leaves the file.

    The model keeps that shape.  The six variables form the record [Globals];
    everything that leaves the file is a [HostCall], answered by a host whose
    state and answers are parameters of the development; each entry point is
    a computation in a state monad over [World], which holds the variables,
    the host and the record of the calls made so far.

    A method call through an interface pointer carries the pointer as its
    receiver.  The code never tests those pointers, so neither does the model:
    what the host makes of a receiver is part of its answer.  Requests to the
    host are atomic with respect to the six variables: the host does not call
    back into the entry points while it answers. *)

From Stdlib Require Import ZArith String List Bool Lia.
From ExtLib Require Import Structures.Monad Structures.MonadState.
From ExtLib Require Import Data.Monads.StateMonad.
Import ListNotations.
Import MonadNotation.

Local Open Scope monad_scope.
Local Open Scope string_scope.
Local Open Scope list_scope.
Local Open Scope Z_scope.

(** ** Values that cross the boundary *)

(** Pointers and JNI references are machine addresses. *)
Definition ptr := Z.
Definition NULL : ptr := 0.

Definition JavaVM_ptr := ptr.
Definition JNIEnv_ptr := ptr.
Definition IUnityInterfaces_ptr := ptr.
Definition IUnityGraphics_ptr := ptr.
Definition jobject := ptr.
Definition jstring := ptr.
Definition jclass := ptr.
Definition jmethodID := ptr.
(** [const char *] *)
Definition cstr := ptr.

Definition jint := Z.
Definition long := Z.

(** [typedef void (*UnitySendMessageCallback)(const char *, const char *,
    const char *)].  The registration casts a [long] to this type; both have
    the width of an address on the Android ABIs, so the cast carries the
    number over and a function pointer is modelled by that number. *)
Definition UnitySendMessageCallback := long.

(** [UnityGfxRenderer] is an enumeration of IUnityGraphics.h; the file only
    moves its values around. *)
Definition UnityGfxRenderer := Z.

(** Modelled from the spec: IUnityGraphics.h is not part of the sources at
    hand.  The device events are the four kinds the specification lists
    (initialize, shutdown, before reset, after reset), under the enumerator
    names the [switch] of [OnGraphicsDeviceEvent] uses. *)
Inductive UnityGfxDeviceEventType : Type :=
| kUnityGfxDeviceEventInitialize
| kUnityGfxDeviceEventShutdown
| kUnityGfxDeviceEventBeforeReset
| kUnityGfxDeviceEventAfterReset.

(** The two functions of the file whose address the file itself hands out. *)
Inductive ShimFunction : Type :=
| fn_OnGraphicsDeviceEvent
| fn_RenderEventFunc.

(** Constants of jni.h, android/log.h and IUnityGraphics.h that the file
    names; their values are fixed by those headers, not by this file. *)
Record Headers : Type := {
  JNI_VERSION_1_6 : jint;
  ANDROID_LOG_DEBUG : Z;
  kUnityGfxRendererNull : UnityGfxRenderer
}.

(** An argument in the variadic tail of [__android_log_print]. *)
Inductive LogArg : Type :=
| LogStr (s : string)
| LogInt (n : Z).

(** ** Requests to the host

    One constructor per operation the file invokes outside itself, indexed by
    the type of the answer. *)
Inductive HostCall : Type -> Type :=
(* [vm->AttachCurrentThread(&cell, args)]: [cell] is what the out-parameter
   holds at the call; the answer is what it holds afterwards, and the status
   code. *)
| AttachCurrentThread (vm : JavaVM_ptr) (cell : JNIEnv_ptr) (args : ptr)
  : HostCall (JNIEnv_ptr * jint)
| GetStringUTFChars (env : JNIEnv_ptr) (s : jstring) (isCopy : ptr)
  : HostCall cstr
| ReleaseStringUTFChars (env : JNIEnv_ptr) (s : jstring) (utf : cstr)
  : HostCall unit
| FindClass (env : JNIEnv_ptr) (name : string) : HostCall jclass
| GetStaticMethodID (env : JNIEnv_ptr) (cls : jclass) (name sig : string)
  : HostCall jmethodID
| CallStaticVoidMethod (env : JNIEnv_ptr) (cls : jclass) (mid : jmethodID)
  : HostCall unit
(* [unityInterfaces->Get<IUnityGraphics>()] *)
| Get_IUnityGraphics (unityInterfaces : IUnityInterfaces_ptr)
  : HostCall IUnityGraphics_ptr
| RegisterDeviceEventCallback (g : IUnityGraphics_ptr) (cb : ShimFunction)
  : HostCall unit
| UnregisterDeviceEventCallback (g : IUnityGraphics_ptr) (cb : ShimFunction)
  : HostCall unit
| GetRenderer (g : IUnityGraphics_ptr) : HostCall UnityGfxRenderer
(* the call [f(target, method, message)] through a function pointer *)
| Deliver (f : UnitySendMessageCallback) (target method message : cstr)
  : HostCall unit
| android_log_print (prio : Z) (tag fmt : string) (args : list LogArg)
  : HostCall Z.

(** A request together with the answer it got. *)
Inductive Event : Type :=
| Called {R : Type} (c : HostCall R) (r : R).

(** ** The file-scope variables *)

Record Globals : Type := {
  java_vm : JavaVM_ptr;
  jni_env : JNIEnv_ptr;
  unity_interfaces : IUnityInterfaces_ptr;
  unity_graphics : IUnityGraphics_ptr;
  unity_renderer_type : UnityGfxRenderer;
  unitySendMessageCallback : UnitySendMessageCallback
}.

Definition set_java_vm (v : JavaVM_ptr) (g : Globals) : Globals :=
  {| java_vm := v; jni_env := jni_env g;
     unity_interfaces := unity_interfaces g;
     unity_graphics := unity_graphics g;
     unity_renderer_type := unity_renderer_type g;
     unitySendMessageCallback := unitySendMessageCallback g |}.

Definition set_jni_env (v : JNIEnv_ptr) (g : Globals) : Globals :=
  {| java_vm := java_vm g; jni_env := v;
     unity_interfaces := unity_interfaces g;
     unity_graphics := unity_graphics g;
     unity_renderer_type := unity_renderer_type g;
     unitySendMessageCallback := unitySendMessageCallback g |}.

Definition set_unity_interfaces (v : IUnityInterfaces_ptr) (g : Globals)
  : Globals :=
  {| java_vm := java_vm g; jni_env := jni_env g;
     unity_interfaces := v;
     unity_graphics := unity_graphics g;
     unity_renderer_type := unity_renderer_type g;
     unitySendMessageCallback := unitySendMessageCallback g |}.

Definition set_unity_graphics (v : IUnityGraphics_ptr) (g : Globals)
  : Globals :=
  {| java_vm := java_vm g; jni_env := jni_env g;
     unity_interfaces := unity_interfaces g;
     unity_graphics := v;
     unity_renderer_type := unity_renderer_type g;
     unitySendMessageCallback := unitySendMessageCallback g |}.

Definition set_unity_renderer_type (v : UnityGfxRenderer) (g : Globals)
  : Globals :=
  {| java_vm := java_vm g; jni_env := jni_env g;
     unity_interfaces := unity_interfaces g;
     unity_graphics := unity_graphics g;
     unity_renderer_type := v;
     unitySendMessageCallback := unitySendMessageCallback g |}.

Definition set_unitySendMessageCallback (v : UnitySendMessageCallback)
  (g : Globals) : Globals :=
  {| java_vm := java_vm g; jni_env := jni_env g;
     unity_interfaces := unity_interfaces g;
     unity_graphics := unity_graphics g;
     unity_renderer_type := unity_renderer_type g;
     unitySendMessageCallback := v |}.

(** Static storage is zero-initialised; only [unity_renderer_type] has an
    initialiser of its own. *)
Definition initial_globals (hdr : Headers) : Globals :=
  {| java_vm := NULL; jni_env := NULL;
     unity_interfaces := NULL; unity_graphics := NULL;
     unity_renderer_type := kUnityGfxRendererNull hdr;
     unitySendMessageCallback := NULL |}.

(** ** Reading the record of calls *)

(** The function pointer an event calls through, if it is such a call. *)
Definition deliverer_of (e : Event) : option UnitySendMessageCallback :=
  match e with
  | Called c _ =>
      match c with
      | Deliver f _ _ _ => Some f
      | _ => None
      end
  end.

(** The function pointers called through, in order. *)
Fixpoint deliveries (evs : list Event) : list UnitySendMessageCallback :=
  match evs with
  | [] => []
  | e :: evs' =>
      match deliverer_of e with
      | Some f => f :: deliveries evs'
      | None => deliveries evs'
      end
  end.

Definition is_log (e : Event) : bool :=
  match e with
  | Called c _ =>
      match c with
      | android_log_print _ _ _ _ => true
      | _ => false
      end
  end.

Definition is_CallStaticVoidMethod (e : Event) : bool :=
  match e with
  | Called c _ =>
      match c with
      | CallStaticVoidMethod _ _ _ => true
      | _ => false
      end
  end.

Definition is_FindClass (e : Event) : bool :=
  match e with
  | Called c _ =>
      match c with
      | FindClass _ _ => true
      | _ => false
      end
  end.

Definition is_GetStaticMethodID (e : Event) : bool :=
  match e with
  | Called c _ =>
      match c with
      | GetStaticMethodID _ _ _ _ => true
      | _ => false
      end
  end.

Definition count (p : Event -> bool) (evs : list Event) : nat :=
  length (filter p evs).

(** ** The host driving the shim

    The entry points a host can reach: the exported functions, and the two
    static ones through the addresses the file hands out. *)
Inductive EntryCall : Type :=
| Enter_JNI_OnLoad (vm : JavaVM_ptr) (reserved : ptr)
| Enter_UnityPluginLoad (unityInterfaces : IUnityInterfaces_ptr)
| Enter_UnityPluginUnload
| Enter_OnGraphicsDeviceEvent (eventType : UnityGfxDeviceEventType)
| Enter_SetUnitySendMessageCallback (env : JNIEnv_ptr) (thisObject : jobject)
    (unitySendMessageCallback_ : long)
| Enter_UnitySendMessage (env : JNIEnv_ptr) (thisObject : jobject)
    (targetString methodString messageString : jstring)
| Enter_GetRenderEventFunc (env : JNIEnv_ptr) (thisObject : jobject)
| Enter_RenderEventFunc (eventId : Z).

Definition is_registration (c : EntryCall) : bool :=
  match c with
  | Enter_SetUnitySendMessageCallback _ _ _ => true
  | _ => false
  end.

(** ** Further readings of the record of calls and of entry sequences *)

(** The environment pointer a class look-up, a method look-up or a static
    call goes through; these are the requests of the render dispatcher. *)
Definition render_receiver_of (e : Event) : option JNIEnv_ptr :=
  match e with
  | Called c _ =>
      match c with
      | FindClass env _ => Some env
      | GetStaticMethodID env _ _ _ => Some env
      | CallStaticVoidMethod env _ _ => Some env
      | _ => None
      end
  end.

Fixpoint render_receivers (evs : list Event) : list JNIEnv_ptr :=
  match evs with
  | [] => []
  | e :: evs' =>
      match render_receiver_of e with
      | Some env => env :: render_receivers evs'
      | None => render_receivers evs'
      end
  end.

(** The graphics interface a registration, an unregistration or a renderer
    query goes through. *)
Definition graphics_receiver_of (e : Event) : option IUnityGraphics_ptr :=
  match e with
  | Called c _ =>
      match c with
      | RegisterDeviceEventCallback g _ => Some g
      | UnregisterDeviceEventCallback g _ => Some g
      | GetRenderer g => Some g
      | _ => None
      end
  end.

Fixpoint graphics_receivers (evs : list Event) : list IUnityGraphics_ptr :=
  match evs with
  | [] => []
  | e :: evs' =>
      match graphics_receiver_of e with
      | Some g => g :: graphics_receivers evs'
      | None => graphics_receivers evs'
      end
  end.

Definition is_GetRenderer (e : Event) : bool :=
  match e with
  | Called c _ =>
      match c with
      | GetRenderer _ => true
      | _ => false
      end
  end.

(** UTF buffers handed out and not yet given back, each with the string it
    was obtained for, newest first. *)
Definition Held := list (jstring * cstr).

Definition same_buffer (a b : jstring * cstr) : bool :=
  (fst a =? fst b) && (snd a =? snd b).

(** Take one holding of [b] out of the list; [None] if there is none. *)
Fixpoint give_back (b : jstring * cstr) (held : Held) : option Held :=
  match held with
  | [] => None
  | x :: rest =>
      if same_buffer b x then Some rest
      else
        match give_back b rest with
        | Some rest' => Some (x :: rest')
        | None => None
        end
  end.

Definition is_held (p : cstr) (held : Held) : bool :=
  existsb (fun x => snd x =? p) held.

(** One event against the buffers held: obtaining a buffer adds a holding;
    releasing needs a holding of that buffer for that string and removes it;
    a call through a function pointer needs its three arguments held; other
    requests do not concern buffers.  [None] is a breach. *)
Definition track (e : Event) (held : Held) : option Held :=
  match e with
  | Called c r =>
      match c in HostCall R return R -> option Held with
      | GetStringUTFChars _ s _ => fun p => Some ((s, p) :: held)
      | ReleaseStringUTFChars _ s utf => fun _ => give_back (s, utf) held
      | Deliver _ target method message =>
          fun _ =>
            if is_held target held && is_held method held
               && is_held message held
            then Some held else None
      | _ => fun _ => Some held
      end r
  end.

Fixpoint track_all (evs : list Event) (held : Held) : option Held :=
  match evs with
  | [] => Some held
  | e :: evs' =>
      match track e held with
      | Some held' => track_all evs' held'
      | None => None
      end
  end.

Definition is_JNI_OnLoad (c : EntryCall) : bool :=
  match c with
  | Enter_JNI_OnLoad _ _ => true
  | _ => false
  end.

Definition is_UnityPluginLoad (c : EntryCall) : bool :=
  match c with
  | Enter_UnityPluginLoad _ => true
  | _ => false
  end.

Definition is_initialize (c : EntryCall) : bool :=
  match c with
  | Enter_OnGraphicsDeviceEvent kUnityGfxDeviceEventInitialize => true
  | _ => false
  end.

Definition is_UnityPluginUnload (c : EntryCall) : bool :=
  match c with
  | Enter_UnityPluginUnload => true
  | _ => false
  end.

(** A render dispatch with event code 2. *)
Definition is_render_update (c : EntryCall) : bool :=
  match c with
  | Enter_RenderEventFunc eventId => eventId =? 2
  | _ => false
  end.

(** Entries whose function contains no assignment to a file-scope variable:
    unload, the two reset events, delivery, the accessor, the dispatcher. *)
Definition is_read_only (c : EntryCall) : bool :=
  match c with
  | Enter_UnityPluginUnload => true
  | Enter_OnGraphicsDeviceEvent kUnityGfxDeviceEventBeforeReset => true
  | Enter_OnGraphicsDeviceEvent kUnityGfxDeviceEventAfterReset => true
  | Enter_UnitySendMessage _ _ _ _ _ => true
  | Enter_GetRenderEventFunc _ _ => true
  | Enter_RenderEventFunc _ => true
  | _ => false
  end.

Definition occurrences (p : EntryCall -> bool) (cs : list EntryCall) : nat :=
  length (filter p cs).

(** ** The world

    The six variables, the state of the host, and the calls made so far with
    their answers, oldest first. *)
Record World (H : Type) : Type := {
  globals : Globals;
  host : H;
  history : list Event
}.

Arguments Build_World {H} _ _ _.
Arguments globals {H} _.
Arguments host {H} _.
Arguments history {H} _.

(** ** A concrete host

    A small host to run the shim against: it hands out fresh 16-byte-apart
    buffers for strings and keeps the list of those not yet released, reports
    the graphics back end it currently has, and remembers every delivery with
    the buffers that were live when it came in. *)
Record Device : Type := {
  fresh : cstr;
  live : list cstr;
  renderer : UnityGfxRenderer;
  inbox : list (UnitySendMessageCallback * cstr * cstr * cstr * list cstr)
}.

Definition device_respond (R : Type) (c : HostCall R) (d : Device)
  : R * Device :=
  match c in HostCall T return T * Device with
  | AttachCurrentThread vm cell args => ((vm + 1, 0), d)
  | GetStringUTFChars env s isCopy =>
      (fresh d,
       {| fresh := fresh d + 16; live := fresh d :: live d;
          renderer := renderer d; inbox := inbox d |})
  | ReleaseStringUTFChars env s utf =>
      (tt,
       {| fresh := fresh d; live := remove Z.eq_dec utf (live d);
          renderer := renderer d; inbox := inbox d |})
  | FindClass env name => (Z.of_nat (String.length name), d)
  | GetStaticMethodID env cls name sig =>
      (cls + Z.of_nat (String.length name), d)
  | CallStaticVoidMethod env cls mid => (tt, d)
  | Get_IUnityGraphics unityInterfaces => (unityInterfaces + 8, d)
  | RegisterDeviceEventCallback g cb => (tt, d)
  | UnregisterDeviceEventCallback g cb => (tt, d)
  | GetRenderer g => (renderer d, d)
  | Deliver f target method message =>
      (tt,
       {| fresh := fresh d; live := live d; renderer := renderer d;
          inbox := inbox d ++ [(f, target, method, message, live d)] |})
  | android_log_print prio tag fmt args => (1, d)
  end.

(** jni.h has JNI_VERSION_1_6 = 0x00010006, android/log.h has
    ANDROID_LOG_DEBUG = 3, IUnityGraphics.h has kUnityGfxRendererNull = 4. *)
Definition android_headers : Headers :=
  {| JNI_VERSION_1_6 := 65542;
     ANDROID_LOG_DEBUG := 3;
     kUnityGfxRendererNull := 4 |}.

Definition device_addresses (f : ShimFunction) : long :=
  match f with
  | fn_OnGraphicsDeviceEvent => 4096
  | fn_RenderEventFunc => 4352
  end.

Definition device_boot : Device :=
  {| fresh := 32768; live := []; renderer := 11; inbox := [] |}.

(** The device right after the library is mapped: the variables as static
    initialisation leaves them. *)
Definition device_unregistered : World Device :=
  {| globals := initial_globals android_headers;
     host := device_boot;
     history := [] |}.

(** The device with the library loaded by the virtual machine at 64 and a
    deliverer at 28672 registered. *)
Definition device_registered : World Device :=
  {| globals :=
       {| java_vm := 64; jni_env := 65;
          unity_interfaces := NULL; unity_graphics := NULL;
          unity_renderer_type := 4;
          unitySendMessageCallback := 28672 |};
     host := device_boot;
     history := [] |}.

(** A session on the device: two deliveries and a render update, none of them
    a registration. *)
Definition device_session : list EntryCall :=
  [Enter_UnitySendMessage 65 7 101 102 103;
   Enter_RenderEventFunc 2;
   Enter_UnitySendMessage 65 7 104 105 106].

(** An Android life on the device: the engine's plugin hooks and device
    events never come; deliveries, a registration, render events and a
    shutdown notification do. *)
Definition device_android_session : list EntryCall :=
  [Enter_UnitySendMessage 65 7 101 102 103;
   Enter_SetUnitySendMessageCallback 65 7 28672;
   Enter_RenderEventFunc 2;
   Enter_UnitySendMessage 66 7 104 105 106;
   Enter_OnGraphicsDeviceEvent kUnityGfxDeviceEventShutdown;
   Enter_RenderEventFunc 2;
   Enter_UnityPluginUnload].

(** A session of the engine after plugin load: an unload, then device events
    still arriving. *)
Definition device_engine_session : list EntryCall :=
  [Enter_OnGraphicsDeviceEvent kUnityGfxDeviceEventShutdown;
   Enter_UnityPluginUnload;
   Enter_OnGraphicsDeviceEvent kUnityGfxDeviceEventInitialize;
   Enter_RenderEventFunc 2;
   Enter_OnGraphicsDeviceEvent kUnityGfxDeviceEventInitialize].

(** A session on the device made only of entries that store nothing. *)
Definition device_quiet_session : list EntryCall :=
  [Enter_UnitySendMessage 65 7 101 102 103;
   Enter_RenderEventFunc 2;
   Enter_UnityPluginUnload;
   Enter_GetRenderEventFunc 65 7;
   Enter_OnGraphicsDeviceEvent kUnityGfxDeviceEventBeforeReset;
   Enter_OnGraphicsDeviceEvent kUnityGfxDeviceEventAfterReset].

(** ** The shim *)

Section Shim.

(** The headers' constants, the load addresses of the file's functions, and
    the host: a state and, for each request, an answer and a next state. *)
Variable hdr : Headers.
Variable address_of : ShimFunction -> long.
Variable H : Type.
Variable respond : forall R : Type, HostCall R -> H -> R * H.

Definition shim := state (World H).

Definition answer {R : Type} (c : HostCall R) (h : H) : R :=
  fst (respond R c h).

Definition after {R : Type} (c : HostCall R) (h : H) : H :=
  snd (respond R c h).

(** Issue a request: the host moves on, the call and its answer are
    recorded after the earlier ones. *)
Definition call {R : Type} (c : HostCall R) : shim R :=
  w <- get ;;
  put {| globals := globals w;
         host := after c (host w);
         history := history w ++ [Called c (answer c (host w))] |} ;;
  ret (answer c (host w)).

Definition load {A : Type} (field : Globals -> A) : shim A :=
  w <- get ;; ret (field (globals w)).

Definition store (upd : Globals -> Globals) : shim unit :=
  w <- get ;;
  put {| globals := upd (globals w);
         host := host w;
         history := history w |}.

(** [#define trace(fmt, ...) __android_log_print(ANDROID_LOG_DEBUG,
    "Bridge", "trace: %s (%i) " fmt, __FUNCTION__, __LINE__, __VA_ARGS__)] *)
Definition trace (function : string) (line : Z) (fmt : string)
  (args : list LogArg) : shim unit :=
  call (android_log_print (ANDROID_LOG_DEBUG hdr) "Bridge"
          (String.append "trace: %s (%i) " fmt)
          (LogStr function :: LogInt line :: args)) ;;
  ret tt.

(** [extern "C" jint JNI_OnLoad(JavaVM *vm, void *reserved)] *)
Definition JNI_OnLoad (vm : JavaVM_ptr) (reserved : ptr) : shim jint :=
  store (set_java_vm vm) ;;
  cell <- load jni_env ;;
  r <- call (AttachCurrentThread vm cell 0) ;;
  store (set_jni_env (fst r)) ;;
  ret (JNI_VERSION_1_6 hdr).

(** [static void OnGraphicsDeviceEvent(UnityGfxDeviceEventType eventType)] *)
Definition OnGraphicsDeviceEvent (eventType : UnityGfxDeviceEventType)
  : shim unit :=
  match eventType with
  | kUnityGfxDeviceEventInitialize =>
      g <- load unity_graphics ;;
      r <- call (GetRenderer g) ;;
      store (set_unity_renderer_type r)
  | kUnityGfxDeviceEventShutdown =>
      store (set_unity_renderer_type (kUnityGfxRendererNull hdr))
  | kUnityGfxDeviceEventBeforeReset => ret tt
  | kUnityGfxDeviceEventAfterReset => ret tt
  end.

(** [extern "C" void UnityPluginLoad(IUnityInterfaces *unityInterfaces)] *)
Definition UnityPluginLoad (unityInterfaces : IUnityInterfaces_ptr)
  : shim unit :=
  store (set_unity_interfaces unityInterfaces) ;;
  g <- call (Get_IUnityGraphics unityInterfaces) ;;
  store (set_unity_graphics g) ;;
  g' <- load unity_graphics ;;
  call (RegisterDeviceEventCallback g' fn_OnGraphicsDeviceEvent) ;;
  OnGraphicsDeviceEvent kUnityGfxDeviceEventInitialize.

(** [extern "C" void UnityPluginUnload()] *)
Definition UnityPluginUnload : shim unit :=
  g <- load unity_graphics ;;
  call (UnregisterDeviceEventCallback g fn_OnGraphicsDeviceEvent).

(** [extern "C" void
    Java_com_ground_up_software_bridge_CBridgePlugin_SetUnitySendMessageCallback
    (JNIEnv *env, jobject thisObject, long unitySendMessageCallback_)] *)
Definition Java_com_ground_up_software_bridge_CBridgePlugin_SetUnitySendMessageCallback
  (env : JNIEnv_ptr) (thisObject : jobject)
  (unitySendMessageCallback_ : long) : shim unit :=
  store (set_unitySendMessageCallback unitySendMessageCallback_).

(** [extern "C" void
    Java_com_ground_up_software_bridge_CBridgePlugin_UnitySendMessage
    (JNIEnv *env, jobject thisObject, jstring targetString,
     jstring methodString, jstring messageString)] *)
Definition Java_com_ground_up_software_bridge_CBridgePlugin_UnitySendMessage
  (env : JNIEnv_ptr) (thisObject : jobject)
  (targetString methodString messageString : jstring) : shim unit :=
  f <- load unitySendMessageCallback ;;
  if f =? 0 then
    trace "Java_com_ground_up_software_bridge_CBridgePlugin_UnitySendMessage"
      139
      "Bridge.cpp: Java_com_ground_up_software_bridge_CBridgePlugin_GetRenderEventFunc: called without unitySendMessageCallback: %d"
      [LogInt 0]
  else
    target <- call (GetStringUTFChars env targetString 0) ;;
    method <- call (GetStringUTFChars env methodString 0) ;;
    message <- call (GetStringUTFChars env messageString 0) ;;
    f' <- load unitySendMessageCallback ;;
    call (Deliver f' target method message) ;;
    call (ReleaseStringUTFChars env targetString target) ;;
    call (ReleaseStringUTFChars env methodString method) ;;
    call (ReleaseStringUTFChars env messageString message).

(** [extern "C" long
    Java_com_ground_up_software_bridge_CBridgePlugin_GetRenderEventFunc
    (JNIEnv *env, jobject thisObject)] *)
Definition Java_com_ground_up_software_bridge_CBridgePlugin_GetRenderEventFunc
  (env : JNIEnv_ptr) (thisObject : jobject) : shim long :=
  ret (address_of fn_RenderEventFunc).

(** [static void RenderEventFunc(int eventId)] *)
Definition RenderEventFunc (eventId : Z) : shim unit :=
  match eventId with
  | 0 => ret tt
  | 1 => ret tt
  | 2 =>
      env <- load jni_env ;;
      class_CBridgePlugin <-
        call (FindClass env "com/ground_up_software/bridge/CBridgePlugin") ;;
      env' <- load jni_env ;;
      method_CBridgePlugin_RenderUpdateBridgePlugins <-
        call (GetStaticMethodID env' class_CBridgePlugin
                "RenderUpdateBridgePlugins" "()V") ;;
      env'' <- load jni_env ;;
      call (CallStaticVoidMethod env'' class_CBridgePlugin
              method_CBridgePlugin_RenderUpdateBridgePlugins)
  | _ => ret tt
  end.

(** ** Running entries *)

Definition enter (c : EntryCall) : shim unit :=
  match c with
  | Enter_JNI_OnLoad vm reserved => JNI_OnLoad vm reserved ;; ret tt
  | Enter_UnityPluginLoad unityInterfaces => UnityPluginLoad unityInterfaces
  | Enter_UnityPluginUnload => UnityPluginUnload
  | Enter_OnGraphicsDeviceEvent eventType => OnGraphicsDeviceEvent eventType
  | Enter_SetUnitySendMessageCallback env thisObject f =>
      Java_com_ground_up_software_bridge_CBridgePlugin_SetUnitySendMessageCallback
        env thisObject f
  | Enter_UnitySendMessage env thisObject t m msg =>
      Java_com_ground_up_software_bridge_CBridgePlugin_UnitySendMessage
        env thisObject t m msg
  | Enter_GetRenderEventFunc env thisObject =>
      Java_com_ground_up_software_bridge_CBridgePlugin_GetRenderEventFunc
        env thisObject ;; ret tt
  | Enter_RenderEventFunc eventId => RenderEventFunc eventId
  end.

(** The world after a sequence of entries, one after the other. *)
Fixpoint run (cs : list EntryCall) (w : World H) : World H :=
  match cs with
  | [] => w
  | c :: cs' => run cs' (execState (enter c) w)
  end.

(** The calls a world has seen beyond a given earlier length of history. *)
Definition issued_since (w0 w : World H) : list Event :=
  skipn (length (history w0)) (history w).

(** [answered h evs h']: from host state [h], the requests of [evs] in this
    order draw exactly the answers recorded in [evs] and leave the host in
    [h']. *)
Inductive answered : H -> list Event -> H -> Prop :=
| answered_nil (h : H) : answered h [] h
| answered_cons (R : Type) (c : HostCall R) (h h' : H) (evs : list Event) :
    answered (after c h) evs h' ->
    answered h (Called c (answer c h) :: evs) h'.

(** The calls one entry adds to the record. *)
Definition emitted (c : EntryCall) (w : World H) : list Event :=
  issued_since w (execState (enter c) w).

Definition is_send (c : EntryCall) : bool :=
  match c with
  | Enter_UnitySendMessage _ _ _ _ _ => true
  | _ => false
  end.

(** How many entries of a sequence are deliveries. *)
Definition sends (cs : list EntryCall) : nat :=
  length (filter is_send cs).

(** The function pointers a sequence of entries is expected to call through,
    when [f] is the registered pointer at its start: a registration replaces
    the pointer, a delivery goes through the pointer of that moment unless it
    is null, nothing else matters. *)
Fixpoint expected_deliveries (f : UnitySendMessageCallback)
  (cs : list EntryCall) : list UnitySendMessageCallback :=
  match cs with
  | [] => []
  | Enter_SetUnitySendMessageCallback _ _ f' :: cs' =>
      expected_deliveries f' cs'
  | Enter_UnitySendMessage _ _ _ _ _ :: cs' =>
      if f =? 0 then expected_deliveries f cs'
      else f :: expected_deliveries f cs'
  | _ :: cs' => expected_deliveries f cs'
  end.

(** A delivery entry from its five arguments. *)
Definition send_of (a : JNIEnv_ptr * jobject * jstring * jstring * jstring)
  : EntryCall :=
  match a with
  | (env, thisObject, targetString, methodString, messageString) =>
      Enter_UnitySendMessage env thisObject targetString methodString
        messageString
  end.

(** ** What each entry point does *)

Lemma JNI_OnLoad_run (vm : JavaVM_ptr) (reserved : ptr) (w : World H) :
  runState (JNI_OnLoad vm reserved) w =
  (JNI_VERSION_1_6 hdr,
   {| globals :=
        set_jni_env
          (fst (answer (AttachCurrentThread vm (jni_env (globals w)) 0) (host w)))
          (set_java_vm vm (globals w));
      host := after (AttachCurrentThread vm (jni_env (globals w)) 0) (host w);
      history :=
        history w ++
        [Called (AttachCurrentThread vm (jni_env (globals w)) 0)
           (answer (AttachCurrentThread vm (jni_env (globals w)) 0) (host w))]
   |}).
Proof. reflexivity. Qed.

Lemma OnGraphicsDeviceEvent_run (eventType : UnityGfxDeviceEventType)
  (w : World H) :
  runState (OnGraphicsDeviceEvent eventType) w =
  (tt,
   match eventType with
   | kUnityGfxDeviceEventInitialize =>
       {| globals :=
            set_unity_renderer_type
              (answer (GetRenderer (unity_graphics (globals w))) (host w))
              (globals w);
          host := after (GetRenderer (unity_graphics (globals w))) (host w);
          history :=
            history w ++
            [Called (GetRenderer (unity_graphics (globals w)))
               (answer (GetRenderer (unity_graphics (globals w))) (host w))]
       |}
   | kUnityGfxDeviceEventShutdown =>
       {| globals :=
            set_unity_renderer_type (kUnityGfxRendererNull hdr) (globals w);
          host := host w;
          history := history w |}
   | kUnityGfxDeviceEventBeforeReset => w
   | kUnityGfxDeviceEventAfterReset => w
   end).
Proof. destruct eventType, w; reflexivity. Qed.

Lemma unit_answer (c : HostCall unit) (h : H) : answer c h = tt.
Proof. destruct (answer c h); reflexivity. Qed.

Lemma answered_cons_unit (c : HostCall unit) (h h' : H) (evs : list Event) :
  answered (after c h) evs h' -> answered h (Called c tt :: evs) h'.
Proof.
  intros Hrest. rewrite <- (unit_answer c h). constructor. exact Hrest.
Qed.

Lemma skipn_history (l evs : list Event) :
  skipn (length l) (l ++ evs) = evs.
Proof. induction l as [| e l IH]; simpl; auto. Qed.

Ltac flatten_history := rewrite <- ?app_assoc; cbn [app].

Ltac step_answered :=
  repeat first
    [ apply answered_nil
    | apply answered_cons
    | apply answered_cons_unit ].

Lemma RenderEventFunc_run (eventId : Z) (w : World H) :
  let env := jni_env (globals w) in
  let find := FindClass env "com/ground_up_software/bridge/CBridgePlugin" in
  let cls := answer find (host w) in
  let lookup := GetStaticMethodID env cls "RenderUpdateBridgePlugins" "()V" in
  let mid := answer lookup (after find (host w)) in
  let invoke := CallStaticVoidMethod env cls mid in
  runState (RenderEventFunc eventId) w =
  (tt,
   if eventId =? 2 then
     {| globals := globals w;
        host := after invoke (after lookup (after find (host w)));
        history :=
          history w ++ [Called find cls; Called lookup mid; Called invoke tt]
     |}
   else w).
Proof.
  cbv zeta.
  destruct eventId as [| [p | [p | p |] |] | p]; try reflexivity.
  unfold RenderEventFunc. cbn. flatten_history. rewrite ?unit_answer.
  reflexivity.
Qed.

Lemma UnitySendMessage_run (env : JNIEnv_ptr) (thisObject : jobject)
  (targetString methodString messageString : jstring) (w : World H) :
  exists (evs : list Event) (h' : H),
    execState
      (Java_com_ground_up_software_bridge_CBridgePlugin_UnitySendMessage
         env thisObject targetString methodString messageString) w
    = {| globals := globals w; host := h'; history := history w ++ evs |}
    /\ deliveries evs =
       (if unitySendMessageCallback (globals w) =? 0 then []
        else [unitySendMessageCallback (globals w)])
    /\ (unitySendMessageCallback (globals w) = 0 ->
        forallb is_log evs = true /\ length evs = 1%nat).
Proof.
  unfold execState,
    Java_com_ground_up_software_bridge_CBridgePlugin_UnitySendMessage.
  cbn.
  destruct (Z.eqb_spec (unitySendMessageCallback (globals w)) 0) as [E | E];
    cbn; flatten_history; eexists _, _; (split; [reflexivity |]);
    (split; [reflexivity |]); intros E'; [split; reflexivity | contradiction].
Qed.

(** Every entry only appends to the record of calls. *)
Lemma enter_history (c : EntryCall) (w : World H) :
  history (execState (enter c) w) = history w ++ emitted c w.
Proof.
  assert (Hext : exists evs, history (execState (enter c) w) = history w ++ evs).
  { destruct c as [vm reserved | ifs | | ev | env this f
                  | env this t m msg | env this | eventId]; cbn [enter].
    - eexists. cbn. reflexivity.
    - eexists. unfold UnityPluginLoad. cbn. flatten_history. reflexivity.
    - eexists. cbn. reflexivity.
    - unfold execState. rewrite OnGraphicsDeviceEvent_run.
      destruct ev; cbn; eexists; first [reflexivity | symmetry; apply app_nil_r].
    - exists []. cbn. symmetry; apply app_nil_r.
    - destruct (UnitySendMessage_run env this t m msg w) as (evs & h' & E & _).
      exists evs. rewrite E. reflexivity.
    - exists []. cbn. symmetry; apply app_nil_r.
    - unfold execState. rewrite RenderEventFunc_run.
      destruct (eventId =? 2); cbn; eexists;
        first [reflexivity | symmetry; apply app_nil_r]. }
  destruct Hext as [evs E]. unfold emitted, issued_since.
  rewrite E, skipn_history. reflexivity.
Qed.

Lemma emitted_unique (c : EntryCall) (w : World H) (evs : list Event) :
  history (execState (enter c) w) = history w ++ evs -> emitted c w = evs.
Proof.
  intros E. unfold emitted, issued_since. rewrite E. apply skipn_history.
Qed.

(** The registered pointer after an entry: only a registration writes it. *)
Lemma enter_deliverer (c : EntryCall) (w : World H) :
  unitySendMessageCallback (globals (execState (enter c) w)) =
  match c with
  | Enter_SetUnitySendMessageCallback _ _ f => f
  | _ => unitySendMessageCallback (globals w)
  end.
Proof.
  destruct c as [vm reserved | ifs | | ev | env this f
                | env this t m msg | env this | eventId]; cbn [enter];
    try reflexivity.
  - unfold execState. rewrite OnGraphicsDeviceEvent_run.
    destruct ev; reflexivity.
  - destruct (UnitySendMessage_run env this t m msg w) as (evs & h' & E & _).
    rewrite E. reflexivity.
  - unfold execState. rewrite RenderEventFunc_run.
    destruct (eventId =? 2); reflexivity.
Qed.

Lemma emitted_deliveries (c : EntryCall) (w : World H) :
  deliveries (emitted c w) =
  expected_deliveries (unitySendMessageCallback (globals w)) [c].
Proof.
  destruct c as [vm reserved | ifs | | ev | env this f
                | env this t m msg | env this | eventId].
  - erewrite emitted_unique; [| cbn; reflexivity]. reflexivity.
  - erewrite emitted_unique;
      [| unfold enter, UnityPluginLoad; cbn; flatten_history; reflexivity].
    reflexivity.
  - erewrite emitted_unique; [| cbn; reflexivity]. reflexivity.
  - destruct ev;
      (erewrite emitted_unique;
       [| cbn; first [reflexivity | symmetry; apply app_nil_r]]);
      reflexivity.
  - erewrite emitted_unique; [| cbn; symmetry; apply app_nil_r]. reflexivity.
  - destruct (UnitySendMessage_run env this t m msg w) as (evs & h' & E & D & _).
    erewrite emitted_unique; [| cbn [enter]; rewrite E; reflexivity].
    rewrite D. cbn.
    destruct (unitySendMessageCallback (globals w) =? 0); reflexivity.
  - erewrite emitted_unique; [| cbn; symmetry; apply app_nil_r]. reflexivity.
  - pose proof (RenderEventFunc_run eventId w) as R. cbv zeta in R.
    destruct (eventId =? 2);
      (erewrite emitted_unique;
       [| cbn [enter]; unfold execState; rewrite R; cbn;
          first [reflexivity | symmetry; apply app_nil_r]]);
      reflexivity.
Qed.

(** ** Sequences of entries *)

Lemma run_history (cs : list EntryCall) (w : World H) :
  history (run cs w) = history w ++ issued_since w (run cs w).
Proof.
  revert w. induction cs as [| c cs IH]; intros w; cbn [run].
  - unfold issued_since. rewrite skipn_all. symmetry; apply app_nil_r.
  - unfold issued_since at 1. rewrite IH, enter_history.
    rewrite <- app_assoc, skipn_history, app_assoc. reflexivity.
Qed.

Lemma issued_cons (c : EntryCall) (cs : list EntryCall) (w : World H) :
  issued_since w (run (c :: cs) w) =
  emitted c w ++
  issued_since (execState (enter c) w) (run cs (execState (enter c) w)).
Proof.
  cbn [run]. unfold issued_since at 1.
  rewrite run_history, enter_history, <- app_assoc, skipn_history.
  reflexivity.
Qed.

Lemma issued_nil (w : World H) : issued_since w (run [] w) = [].
Proof. unfold issued_since. cbn [run]. apply skipn_all. Qed.

Lemma deliveries_app (l1 l2 : list Event) :
  deliveries (l1 ++ l2) = deliveries l1 ++ deliveries l2.
Proof.
  induction l1 as [| e l1 IH]; cbn [app deliveries]; [reflexivity |].
  destruct (deliverer_of e); rewrite IH; reflexivity.
Qed.

Lemma count_app (p : Event -> bool) (l1 l2 : list Event) :
  count p (l1 ++ l2) = (count p l1 + count p l2)%nat.
Proof. unfold count. rewrite filter_app, length_app. reflexivity. Qed.

Lemma expected_deliveries_cons (f : UnitySendMessageCallback)
  (c : EntryCall) (cs : list EntryCall) :
  expected_deliveries f (c :: cs) =
  expected_deliveries f [c] ++
  expected_deliveries
    (match c with
     | Enter_SetUnitySendMessageCallback _ _ f' => f'
     | _ => f
     end) cs.
Proof.
  destruct c; cbn [expected_deliveries app]; try reflexivity.
  destruct (f =? 0); reflexivity.
Qed.

(** The deliveries of a run are those the registered pointer of each moment
    calls for. *)
Lemma run_deliveries (cs : list EntryCall) (w : World H) :
  deliveries (issued_since w (run cs w)) =
  expected_deliveries (unitySendMessageCallback (globals w)) cs.
Proof.
  revert w. induction cs as [| c cs IH]; intros w.
  - rewrite issued_nil. reflexivity.
  - rewrite issued_cons, deliveries_app, IH, emitted_deliveries,
      enter_deliverer.
    symmetry. apply expected_deliveries_cons.
Qed.

Lemma expected_deliveries_fixed (f : UnitySendMessageCallback)
  (cs : list EntryCall) :
  forallb (fun c => negb (is_registration c)) cs = true ->
  expected_deliveries f cs = if f =? 0 then [] else repeat f (sends cs).
Proof.
  induction cs as [| c cs IH]; cbn [forallb]; intros Hcs.
  - destruct (f =? 0); reflexivity.
  - apply andb_true_iff in Hcs. destruct Hcs as [Hc Hcs].
    specialize (IH Hcs). unfold sends in *.
    destruct c; cbn [is_registration negb] in Hc; try discriminate;
      cbn [expected_deliveries filter is_send length]; rewrite IH;
      destruct (f =? 0); reflexivity.
Qed.

Lemma run_sends_unregistered
  (ds : list (JNIEnv_ptr * jobject * jstring * jstring * jstring))
  (w : World H) :
  unitySendMessageCallback (globals w) = 0 ->
  forallb is_log (issued_since w (run (map send_of ds) w)) = true
  /\ length (issued_since w (run (map send_of ds) w)) = length ds
  /\ globals (run (map send_of ds) w) = globals w.
Proof.
  revert w. induction ds as [| [[[[env this] t] m] msg] ds IH]; intros w Hnull.
  - cbn [map]. rewrite issued_nil. repeat split.
  - cbn [map send_of]. rewrite issued_cons. cbn [run].
    destruct (UnitySendMessage_run env this t m msg w)
      as (evs & h' & E & _ & Hlog).
    destruct (Hlog Hnull) as [Hall Hlen].
    assert (Hem : emitted (Enter_UnitySendMessage env this t m msg) w = evs).
    { apply emitted_unique. cbn [enter]. rewrite E. reflexivity. }
    cbn [enter]. rewrite Hem, E.
    destruct (IH {| globals := globals w; host := h';
                    history := history w ++ evs |} Hnull)
      as (IHall & IHlen & IHg).
    rewrite forallb_app, length_app, Hall, IHall, Hlen, IHlen, IHg.
    repeat split.
Qed.

Lemma run_render_events (codes : list Z) (w : World H) :
  let evs := issued_since w (run (map Enter_RenderEventFunc codes) w) in
  count is_CallStaticVoidMethod evs = count_occ Z.eq_dec codes 2
  /\ count is_FindClass evs = count_occ Z.eq_dec codes 2
  /\ count is_GetStaticMethodID evs = count_occ Z.eq_dec codes 2
  /\ length evs = (3 * count_occ Z.eq_dec codes 2%Z)%nat
  /\ globals (run (map Enter_RenderEventFunc codes) w) = globals w.
Proof.
  cbv zeta. revert w.
  induction codes as [| eventId codes IH]; intros w.
  - cbn [map]. rewrite issued_nil. repeat split.
  - cbn [map]. rewrite issued_cons. cbn [run enter].
    pose proof (RenderEventFunc_run eventId w) as R. cbv zeta in R.
    assert (E : execState (RenderEventFunc eventId) w
                = snd (runState (RenderEventFunc eventId) w))
      by (unfold execState; destruct (runState _ w); reflexivity).
    rewrite E, R. cbn [snd]. clear E.
    cbn [count_occ].
    destruct (Z.eq_dec eventId 2) as [-> | Hne].
    + erewrite emitted_unique;
        [| cbn [enter]; unfold execState; rewrite R; cbn; reflexivity].
      cbn [Z.eqb Pos.eqb].
      match goal with
      | |- context [run _ ?w1] => destruct (IH w1) as (I1 & I2 & I3 & I4 & I5)
      end.
      rewrite !count_app, length_app, I1, I2, I3, I4, I5.
      cbn. repeat split; lia.
    + assert (Hf : (eventId =? 2) = false) by (apply Z.eqb_neq; exact Hne).
      erewrite emitted_unique;
        [| cbn [enter]; unfold execState; rewrite R, Hf; cbn;
           symmetry; apply app_nil_r].
      rewrite Hf. destruct (Z.eq_dec 2 eventId) as [Heq | _];
        [congruence |].
      cbn [app]. apply IH.
Qed.

(** ** The properties of the specification *)

(** C1: with a deliverer registered ([unitySendMessageCallback] not null),
    [UnitySendMessage] obtains the UTF characters of the target, the method
    and the message string, in this order; calls the registered function
    pointer once, with exactly the three buffers it obtained, in the order
    target, method, message; then releases the three buffers, each against
    its own string; and returns.  It makes no other request, every request is
    made and answered before the next one, and the variables are as before. *)
Theorem UnitySendMessage_delivers_once_and_releases
  (env : JNIEnv_ptr) (thisObject : jobject)
  (targetString methodString messageString : jstring) (w : World H) :
  unitySendMessageCallback (globals w) <> NULL ->
  exists (target method message : cstr) (h' : H),
    let evs :=
      [Called (GetStringUTFChars env targetString 0) target;
       Called (GetStringUTFChars env methodString 0) method;
       Called (GetStringUTFChars env messageString 0) message;
       Called
         (Deliver (unitySendMessageCallback (globals w))
            target method message) tt;
       Called (ReleaseStringUTFChars env targetString target) tt;
       Called (ReleaseStringUTFChars env methodString method) tt;
       Called (ReleaseStringUTFChars env messageString message) tt] in
    runState
      (Java_com_ground_up_software_bridge_CBridgePlugin_UnitySendMessage
         env thisObject targetString methodString messageString) w
    = (tt,
       {| globals := globals w;
          host := h';
          history := history w ++ evs |})
    /\ answered (host w) evs h'
    /\ deliveries evs = [unitySendMessageCallback (globals w)].
Proof.
  intros Hregistered. eexists _, _, _, _. cbn zeta.
  unfold Java_com_ground_up_software_bridge_CBridgePlugin_UnitySendMessage.
  cbn.
  destruct (Z.eqb_spec (unitySendMessageCallback (globals w)) 0) as [E | E];
    [contradiction |].
  cbn. flatten_history. rewrite ?unit_answer.
  split; [reflexivity | split; [step_answered | reflexivity]].
Qed.

(** C2: with no deliverer registered ([unitySendMessageCallback] null),
    [UnitySendMessage] writes one debug line to the log and returns: that
    line is the only request it makes, so nothing is called through the null
    pointer and no string is touched, the variables are as before, and the
    caller gets the ordinary [void] return. *)
Theorem UnitySendMessage_without_deliverer_only_logs
  (env : JNIEnv_ptr) (thisObject : jobject)
  (targetString methodString messageString : jstring) (w : World H) :
  unitySendMessageCallback (globals w) = NULL ->
  exists (r : Z) (h' : H),
    let evs :=
      [Called
         (android_log_print (ANDROID_LOG_DEBUG hdr) "Bridge"
            "trace: %s (%i) Bridge.cpp: Java_com_ground_up_software_bridge_CBridgePlugin_GetRenderEventFunc: called without unitySendMessageCallback: %d"
            [LogStr
               "Java_com_ground_up_software_bridge_CBridgePlugin_UnitySendMessage";
             LogInt 139;
             LogInt 0]) r] in
    runState
      (Java_com_ground_up_software_bridge_CBridgePlugin_UnitySendMessage
         env thisObject targetString methodString messageString) w
    = (tt,
       {| globals := globals w;
          host := h';
          history := history w ++ evs |})
    /\ answered (host w) evs h'
    /\ deliveries evs = []
    /\ count is_log evs = 1%nat.
Proof.
  intros Hnull. eexists _, _. cbn zeta.
  unfold Java_com_ground_up_software_bridge_CBridgePlugin_UnitySendMessage.
  cbn. rewrite Hnull. cbn.
  split; [reflexivity | split; [step_answered | split; reflexivity]].
Qed.

(** C3: a registration stores its pointer argument in
    [unitySendMessageCallback], whatever the value, makes no request and
    changes nothing else; so after registering [p1] and then [p2] the stored
    pointer is [p2], and over any later sequence of entries without a further
    registration every delivery goes through [p2] and none through anything
    else: one call through [p2] per delivery entry when [p2] is not null,
    and none at all when it is. *)
Theorem SetUnitySendMessageCallback_last_write_wins
  (env1 env2 : JNIEnv_ptr) (this1 this2 : jobject)
  (p1 p2 : long) (cs : list EntryCall) (w : World H) :
  forallb (fun c => negb (is_registration c)) cs = true ->
  let w1 :=
    execState
      (Java_com_ground_up_software_bridge_CBridgePlugin_SetUnitySendMessageCallback
         env1 this1 p1) w in
  let w2 :=
    execState
      (Java_com_ground_up_software_bridge_CBridgePlugin_SetUnitySendMessageCallback
         env2 this2 p2) w1 in
  w1 = {| globals := set_unitySendMessageCallback p1 (globals w);
          host := host w;
          history := history w |}
  /\ w2 = {| globals := set_unitySendMessageCallback p2 (globals w);
             host := host w;
             history := history w |}
  /\ unitySendMessageCallback (globals w2) = p2
  /\ deliveries (issued_since w2 (run cs w2))
     = (if p2 =? 0 then [] else repeat p2 (sends cs)).
Proof.
  intros Hcs w1 w2. subst w1 w2.
  split; [reflexivity | split; [reflexivity | split; [reflexivity |]]].
  rewrite run_deliveries. cbn [execState runState].
  rewrite expected_deliveries_fixed by exact Hcs. reflexivity.
Qed.

(** C4: [RenderEventFunc] with event code 2 finds the class
    com/ground_up_software/bridge/CBridgePlugin by name, then the static
    method RenderUpdateBridgePlugins of signature ()V of the class it found,
    then calls that method of that class once, all through [jni_env], each
    request answered before the next is made, and stores nothing; with code 0,
    code 1 or any other code it returns with the world untouched.  Over any
    sequence of event codes, the number of calls of the method, of class
    look-ups and of method look-ups each equal the number of 2s in the
    sequence, there are no other requests, and the variables end as they
    began (nothing is cached). *)
Theorem RenderEventFunc_dispatches_on_event_code :
  (forall (eventId : Z) (w : World H),
      exists (cls : jclass) (mid : jmethodID) (h' : H),
        let env := jni_env (globals w) in
        let evs :=
          [Called
             (FindClass env "com/ground_up_software/bridge/CBridgePlugin") cls;
           Called
             (GetStaticMethodID env cls "RenderUpdateBridgePlugins" "()V") mid;
           Called (CallStaticVoidMethod env cls mid) tt] in
        runState (RenderEventFunc eventId) w =
        (tt,
         if eventId =? 2 then
           {| globals := globals w;
              host := h';
              history := history w ++ evs |}
         else w)
        /\ answered (host w) evs h')
  /\ (forall w : World H,
         runState (RenderEventFunc 0) w = (tt, w)
         /\ runState (RenderEventFunc 1) w = (tt, w))
  /\ (forall (codes : list Z) (w : World H),
         let w' := run (map Enter_RenderEventFunc codes) w in
         let evs := issued_since w w' in
         count is_CallStaticVoidMethod evs = count_occ Z.eq_dec codes 2
         /\ count is_FindClass evs = count_occ Z.eq_dec codes 2
         /\ count is_GetStaticMethodID evs = count_occ Z.eq_dec codes 2
         /\ length evs = (3 * count_occ Z.eq_dec codes 2%Z)%nat
         /\ globals w' = globals w).
Proof.
  split; [| split].
  - intros eventId w. eexists _, _, _. cbn zeta.
    pose proof (RenderEventFunc_run eventId w) as R. cbv zeta in R.
    split; [exact R | step_answered].
  - intros w. split; reflexivity.
  - intros codes w. exact (run_render_events codes w).
Qed.

(** C5: on the initialize event [OnGraphicsDeviceEvent] asks the graphics
    interface held in [unity_graphics] for its renderer, once, and stores the
    answer of that very request in [unity_renderer_type]; on the shutdown
    event it stores [kUnityGfxRendererNull] there and asks nothing; on the
    before-reset and after-reset events the world stays as it is.  No event
    touches the other five variables. *)
Theorem OnGraphicsDeviceEvent_tracks_renderer
  (eventType : UnityGfxDeviceEventType) (w : World H) :
  let query := GetRenderer (unity_graphics (globals w)) in
  let g := globals w in
  execState (OnGraphicsDeviceEvent eventType) w =
  match eventType with
  | kUnityGfxDeviceEventInitialize =>
      {| globals :=
           {| java_vm := java_vm g; jni_env := jni_env g;
              unity_interfaces := unity_interfaces g;
              unity_graphics := unity_graphics g;
              unity_renderer_type := answer query (host w);
              unitySendMessageCallback := unitySendMessageCallback g |};
         host := after query (host w);
         history := history w ++ [Called query (answer query (host w))] |}
  | kUnityGfxDeviceEventShutdown =>
      {| globals :=
           {| java_vm := java_vm g; jni_env := jni_env g;
              unity_interfaces := unity_interfaces g;
              unity_graphics := unity_graphics g;
              unity_renderer_type := kUnityGfxRendererNull hdr;
              unitySendMessageCallback := unitySendMessageCallback g |};
         host := host w;
         history := history w |}
  | kUnityGfxDeviceEventBeforeReset => w
  | kUnityGfxDeviceEventAfterReset => w
  end.
Proof.
  intros query g. subst query g.
  unfold execState. rewrite OnGraphicsDeviceEvent_run.
  destruct eventType; reflexivity.
Qed.

(** C6: [UnityPluginLoad] records the interfaces handle in
    [unity_interfaces], asks it for the graphics interface and records the
    answer in [unity_graphics], registers [OnGraphicsDeviceEvent] with that
    interface and then runs the initialize event itself, so that
    [unity_renderer_type] holds the renderer reported during the call;
    [UnityPluginUnload] asks the interface held in [unity_graphics] to
    unregister [OnGraphicsDeviceEvent] and changes no variable; after a load,
    the unload names the same interface and the same function as the
    registration did. *)
Theorem UnityPluginLoad_registers_UnityPluginUnload_unregisters :
  (forall (unityInterfaces : IUnityInterfaces_ptr) (w : World H),
      exists (g : IUnityGraphics_ptr) (r : UnityGfxRenderer) (h' : H),
        let evs :=
          [Called (Get_IUnityGraphics unityInterfaces) g;
           Called (RegisterDeviceEventCallback g fn_OnGraphicsDeviceEvent) tt;
           Called (GetRenderer g) r] in
        runState (UnityPluginLoad unityInterfaces) w =
        (tt,
         {| globals :=
              {| java_vm := java_vm (globals w);
                 jni_env := jni_env (globals w);
                 unity_interfaces := unityInterfaces;
                 unity_graphics := g;
                 unity_renderer_type := r;
                 unitySendMessageCallback :=
                   unitySendMessageCallback (globals w) |};
            host := h';
            history := history w ++ evs |})
        /\ answered (host w) evs h')
  /\ (forall w : World H,
         exists h' : H,
           let evs :=
             [Called
                (UnregisterDeviceEventCallback (unity_graphics (globals w))
                   fn_OnGraphicsDeviceEvent) tt] in
           runState UnityPluginUnload w =
           (tt,
            {| globals := globals w;
               host := h';
               history := history w ++ evs |})
           /\ answered (host w) evs h')
  /\ (forall (unityInterfaces : IUnityInterfaces_ptr) (w : World H),
         exists (g : IUnityGraphics_ptr) (r : UnityGfxRenderer),
           issued_since w
             (run [Enter_UnityPluginLoad unityInterfaces;
                   Enter_UnityPluginUnload] w)
           = [Called (Get_IUnityGraphics unityInterfaces) g;
              Called (RegisterDeviceEventCallback g fn_OnGraphicsDeviceEvent)
                tt;
              Called (GetRenderer g) r;
              Called (UnregisterDeviceEventCallback g fn_OnGraphicsDeviceEvent)
                tt]).
Proof.
  split; [| split].
  - intros unityInterfaces w. eexists _, _, _. cbn zeta.
    unfold UnityPluginLoad. cbn. flatten_history. rewrite ?unit_answer.
    split; [reflexivity | step_answered].
  - intros w. eexists. cbn zeta.
    unfold UnityPluginUnload. cbn. rewrite ?unit_answer.
    split; [reflexivity | step_answered].
  - intros unityInterfaces w. eexists _, _.
    unfold issued_since, run, enter, execState, UnityPluginLoad,
      UnityPluginUnload.
    cbn. flatten_history. rewrite ?unit_answer.
    rewrite skipn_history. reflexivity.
Qed.

(** C7: [JNI_OnLoad] stores the virtual-machine handle it is given in
    [java_vm], attaches the current thread with [jni_env] as the place for
    the environment handle (so that [jni_env] afterwards holds what the
    attach call left there), makes no other request, leaves the other four
    variables alone and returns [JNI_VERSION_1_6], whatever the handle and
    the world it is called in. *)
Theorem JNI_OnLoad_stores_vm_attaches_returns_version
  (vm : JavaVM_ptr) (reserved : ptr) (w : World H) :
  let attach := AttachCurrentThread vm (jni_env (globals w)) 0 in
  let w' := execState (JNI_OnLoad vm reserved) w in
  evalState (JNI_OnLoad vm reserved) w = JNI_VERSION_1_6 hdr
  /\ java_vm (globals w') = vm
  /\ jni_env (globals w') = fst (answer attach (host w))
  /\ unity_interfaces (globals w') = unity_interfaces (globals w)
  /\ unity_graphics (globals w') = unity_graphics (globals w)
  /\ unity_renderer_type (globals w') = unity_renderer_type (globals w)
  /\ unitySendMessageCallback (globals w')
     = unitySendMessageCallback (globals w)
  /\ host w' = after attach (host w)
  /\ history w' = history w ++ [Called attach (answer attach (host w))].
Proof.
  intros attach w'. subst attach w'.
  unfold evalState, execState. rewrite JNI_OnLoad_run. cbn.
  repeat split.
Qed.

(** C8: the accessor [GetRenderEventFunc] ignores its two arguments, makes no
    request, changes nothing in the world and returns the address of
    [RenderEventFunc]; hence any two calls, with any arguments and in any
    worlds, return the same value. *)
Theorem GetRenderEventFunc_returns_address_of_RenderEventFunc :
  (forall (env : JNIEnv_ptr) (thisObject : jobject) (w : World H),
      runState
        (Java_com_ground_up_software_bridge_CBridgePlugin_GetRenderEventFunc
           env thisObject) w
      = (address_of fn_RenderEventFunc, w))
  /\ (forall (env1 env2 : JNIEnv_ptr) (this1 this2 : jobject) (w1 w2 : World H),
         evalState
           (Java_com_ground_up_software_bridge_CBridgePlugin_GetRenderEventFunc
              env1 this1) w1
         = evalState
             (Java_com_ground_up_software_bridge_CBridgePlugin_GetRenderEventFunc
                env2 this2) w2).
Proof. split; intros; reflexivity. Qed.

(** C9: [UnitySendMessage] leaves all six variables as they were, whether or
    not a deliverer is registered; and of all the entry points only the
    registration changes [unitySendMessageCallback]: after any entry the
    pointer is the registered argument if the entry was a registration, and
    what it was before otherwise. *)
Theorem UnitySendMessage_leaves_variables_unchanged :
  (forall (env : JNIEnv_ptr) (thisObject : jobject)
          (targetString methodString messageString : jstring) (w : World H),
      globals
        (execState
           (Java_com_ground_up_software_bridge_CBridgePlugin_UnitySendMessage
              env thisObject targetString methodString messageString) w)
      = globals w)
  /\ (forall (c : EntryCall) (w : World H),
         unitySendMessageCallback (globals (execState (enter c) w)) =
         match c with
         | Enter_SetUnitySendMessageCallback _ _ f => f
         | _ => unitySendMessageCallback (globals w)
         end).
Proof.
  split.
  - intros env thisObject targetString methodString messageString w.
    destruct (UnitySendMessage_run env thisObject targetString methodString
                messageString w) as (evs & h' & E & _).
    rewrite E. reflexivity.
  - exact enter_deliverer.
Qed.

(** C10: the registration takes the null pointer like any other value:
    registering 0 leaves [unitySendMessageCallback] null whatever was
    registered before; from there every delivery, however many follow, makes
    one request each, a log line, and calls through no pointer; and in any
    sequence of entries the test is made afresh at each delivery, against the
    pointer registered at that moment. *)
Theorem registering_null_returns_to_unregistered
  (env : JNIEnv_ptr) (thisObject : jobject) (w : World H) :
  let w0 :=
    execState
      (Java_com_ground_up_software_bridge_CBridgePlugin_SetUnitySendMessageCallback
         env thisObject NULL) w in
  w0 = {| globals := set_unitySendMessageCallback NULL (globals w);
          host := host w;
          history := history w |}
  /\ unitySendMessageCallback (globals w0) = NULL
  /\ (forall ds : list (JNIEnv_ptr * jobject * jstring * jstring * jstring),
         let evs := issued_since w0 (run (map send_of ds) w0) in
         forallb is_log evs = true
         /\ length evs = length ds
         /\ deliveries evs = []
         /\ globals (run (map send_of ds) w0) = globals w0)
  /\ (forall cs : list EntryCall,
         deliveries (issued_since w (run cs w))
         = expected_deliveries (unitySendMessageCallback (globals w)) cs).
Proof.
  intros w0. subst w0.
  split; [reflexivity | split; [reflexivity | split]].
  - intros ds evs. subst evs.
    match goal with
    | |- context [run _ ?w0] =>
        destruct (run_sends_unregistered ds w0 eq_refl) as (Hall & Hlen & Hg)
    end.
    repeat split; try assumption.
    rewrite run_deliveries. cbn [execState runState].
    clear. induction ds as [| [[[[e t] a] b] c] ds IH]; [reflexivity |].
    cbn [map send_of expected_deliveries].
    exact IH.
  - intros cs. apply run_deliveries.
Qed.

(** ** Beyond the specification: each entry, request by request *)

Lemma emitted_JNI_OnLoad (vm : JavaVM_ptr) (reserved : ptr) (w : World H) :
  emitted (Enter_JNI_OnLoad vm reserved) w =
  [Called (AttachCurrentThread vm (jni_env (globals w)) 0)
     (answer (AttachCurrentThread vm (jni_env (globals w)) 0) (host w))].
Proof. apply emitted_unique. reflexivity. Qed.

Lemma emitted_UnityPluginLoad (unityInterfaces : IUnityInterfaces_ptr)
  (w : World H) :
  let get := Get_IUnityGraphics unityInterfaces in
  let g := answer get (host w) in
  let register := RegisterDeviceEventCallback g fn_OnGraphicsDeviceEvent in
  emitted (Enter_UnityPluginLoad unityInterfaces) w =
  [Called get g;
   Called register tt;
   Called (GetRenderer g)
     (answer (GetRenderer g) (after register (after get (host w))))].
Proof.
  cbv zeta. apply emitted_unique.
  unfold enter, execState, UnityPluginLoad. cbn. flatten_history.
  rewrite ?unit_answer. reflexivity.
Qed.

Lemma emitted_UnityPluginUnload (w : World H) :
  emitted Enter_UnityPluginUnload w =
  [Called
     (UnregisterDeviceEventCallback (unity_graphics (globals w))
        fn_OnGraphicsDeviceEvent) tt].
Proof.
  apply emitted_unique. unfold enter, execState, UnityPluginUnload. cbn.
  rewrite ?unit_answer. reflexivity.
Qed.

Lemma emitted_OnGraphicsDeviceEvent (eventType : UnityGfxDeviceEventType)
  (w : World H) :
  emitted (Enter_OnGraphicsDeviceEvent eventType) w =
  match eventType with
  | kUnityGfxDeviceEventInitialize =>
      [Called (GetRenderer (unity_graphics (globals w)))
         (answer (GetRenderer (unity_graphics (globals w))) (host w))]
  | _ => []
  end.
Proof.
  apply emitted_unique. cbn [enter]. unfold execState.
  rewrite OnGraphicsDeviceEvent_run.
  destruct eventType; cbn; first [reflexivity | symmetry; apply app_nil_r].
Qed.

Lemma emitted_SetUnitySendMessageCallback (env : JNIEnv_ptr)
  (thisObject : jobject) (f : long) (w : World H) :
  emitted (Enter_SetUnitySendMessageCallback env thisObject f) w = [].
Proof. apply emitted_unique. cbn. symmetry; apply app_nil_r. Qed.

Lemma emitted_GetRenderEventFunc (env : JNIEnv_ptr) (thisObject : jobject)
  (w : World H) :
  emitted (Enter_GetRenderEventFunc env thisObject) w = [].
Proof. apply emitted_unique. cbn. symmetry; apply app_nil_r. Qed.

Lemma emitted_RenderEventFunc (eventId : Z) (w : World H) :
  let env := jni_env (globals w) in
  let find := FindClass env "com/ground_up_software/bridge/CBridgePlugin" in
  let cls := answer find (host w) in
  let lookup := GetStaticMethodID env cls "RenderUpdateBridgePlugins" "()V" in
  let mid := answer lookup (after find (host w)) in
  emitted (Enter_RenderEventFunc eventId) w =
  if eventId =? 2 then
    [Called find cls; Called lookup mid;
     Called (CallStaticVoidMethod env cls mid) tt]
  else [].
Proof.
  cbv zeta. apply emitted_unique. cbn [enter]. unfold execState.
  pose proof (RenderEventFunc_run eventId w) as R. cbv zeta in R. rewrite R.
  destruct (eventId =? 2); cbn;
    first [reflexivity | symmetry; apply app_nil_r].
Qed.

Lemma emitted_UnitySendMessage (env : JNIEnv_ptr) (thisObject : jobject)
  (targetString methodString messageString : jstring) (w : World H) :
  let f := unitySendMessageCallback (globals w) in
  let get_target := GetStringUTFChars env targetString 0 in
  let get_method := GetStringUTFChars env methodString 0 in
  let get_message := GetStringUTFChars env messageString 0 in
  let target := answer get_target (host w) in
  let h1 := after get_target (host w) in
  let method := answer get_method h1 in
  let h2 := after get_method h1 in
  let message := answer get_message h2 in
  let log :=
    android_log_print (ANDROID_LOG_DEBUG hdr) "Bridge"
      "trace: %s (%i) Bridge.cpp: Java_com_ground_up_software_bridge_CBridgePlugin_GetRenderEventFunc: called without unitySendMessageCallback: %d"
      [LogStr
         "Java_com_ground_up_software_bridge_CBridgePlugin_UnitySendMessage";
       LogInt 139; LogInt 0] in
  emitted
    (Enter_UnitySendMessage env thisObject targetString methodString
       messageString) w =
  if f =? 0 then [Called log (answer log (host w))]
  else
    [Called get_target target;
     Called get_method method;
     Called get_message message;
     Called (Deliver f target method message) tt;
     Called (ReleaseStringUTFChars env targetString target) tt;
     Called (ReleaseStringUTFChars env methodString method) tt;
     Called (ReleaseStringUTFChars env messageString message) tt].
Proof.
  cbv zeta. apply emitted_unique. cbn [enter].
  unfold execState,
    Java_com_ground_up_software_bridge_CBridgePlugin_UnitySendMessage.
  cbn.
  destruct (unitySendMessageCallback (globals w) =? 0); cbn;
    flatten_history; rewrite ?unit_answer; reflexivity.
Qed.

(** The variables after an entry, entry by entry. *)
Lemma enter_globals (c : EntryCall) (w : World H) :
  globals (execState (enter c) w) =
  match c with
  | Enter_JNI_OnLoad vm _ =>
      set_jni_env
        (fst (answer (AttachCurrentThread vm (jni_env (globals w)) 0)
                (host w)))
        (set_java_vm vm (globals w))
  | Enter_UnityPluginLoad unityInterfaces =>
      let get := Get_IUnityGraphics unityInterfaces in
      let g := answer get (host w) in
      let register := RegisterDeviceEventCallback g fn_OnGraphicsDeviceEvent in
      set_unity_renderer_type
        (answer (GetRenderer g) (after register (after get (host w))))
        (set_unity_graphics g
           (set_unity_interfaces unityInterfaces (globals w)))
  | Enter_OnGraphicsDeviceEvent kUnityGfxDeviceEventInitialize =>
      set_unity_renderer_type
        (answer (GetRenderer (unity_graphics (globals w))) (host w))
        (globals w)
  | Enter_OnGraphicsDeviceEvent kUnityGfxDeviceEventShutdown =>
      set_unity_renderer_type (kUnityGfxRendererNull hdr) (globals w)
  | Enter_SetUnitySendMessageCallback _ _ f =>
      set_unitySendMessageCallback f (globals w)
  | _ => globals w
  end.
Proof.
  destruct c as [vm reserved | ifs | | ev | env this f
                | env this t m msg | env this | eventId]; cbn [enter];
    try reflexivity.
  - unfold execState. rewrite OnGraphicsDeviceEvent_run.
    destruct ev; reflexivity.
  - destruct (UnitySendMessage_run env this t m msg w) as (evs & h' & E & _).
    rewrite E. reflexivity.
  - unfold execState. rewrite RenderEventFunc_run.
    destruct (eventId =? 2); reflexivity.
Qed.

Ltac rewrite_emitted L :=
  let E := fresh "E" in pose proof L as E; cbv zeta in E; rewrite E; clear E.

(** Split on the entry and replace what it emits by its list of requests. *)
Ltac by_entry c w :=
  destruct c as [?vm ?reserved | ?ifs | | ?ev | ?env ?this ?f
                | ?env ?this ?t ?m ?msg | ?env ?this | ?eventId];
  [ rewrite emitted_JNI_OnLoad
  | rewrite_emitted (emitted_UnityPluginLoad ifs w)
  | rewrite emitted_UnityPluginUnload
  | rewrite emitted_OnGraphicsDeviceEvent; destruct ev
  | rewrite emitted_SetUnitySendMessageCallback
  | rewrite_emitted (emitted_UnitySendMessage env this t m msg w);
    destruct (unitySendMessageCallback (globals w) =? 0)
  | rewrite emitted_GetRenderEventFunc
  | rewrite_emitted (emitted_RenderEventFunc eventId w);
    cbn [is_render_update]; destruct (eventId =? 2) ].

Lemma occurrences_cons (p : EntryCall -> bool) (c : EntryCall)
  (cs : list EntryCall) :
  occurrences p (c :: cs) =
  ((if p c then 1 else 0) + occurrences p cs)%nat.
Proof. unfold occurrences. cbn [filter]. destruct (p c); reflexivity. Qed.

Lemma render_receivers_app (l1 l2 : list Event) :
  render_receivers (l1 ++ l2) = render_receivers l1 ++ render_receivers l2.
Proof.
  induction l1 as [| e l1 IH]; cbn [app render_receivers]; [reflexivity |].
  destruct (render_receiver_of e); rewrite IH; reflexivity.
Qed.

Lemma graphics_receivers_app (l1 l2 : list Event) :
  graphics_receivers (l1 ++ l2) =
  graphics_receivers l1 ++ graphics_receivers l2.
Proof.
  induction l1 as [| e l1 IH]; cbn [app graphics_receivers]; [reflexivity |].
  destruct (graphics_receiver_of e); rewrite IH; reflexivity.
Qed.

Lemma track_all_app (l1 l2 : list Event) (held : Held) :
  track_all (l1 ++ l2) held =
  match track_all l1 held with
  | Some held' => track_all l2 held'
  | None => None
  end.
Proof.
  revert held. induction l1 as [| e l1 IH]; intros held;
    cbn [app track_all]; [reflexivity |].
  destruct (track e held); [apply IH | reflexivity].
Qed.

Lemma emitted_render_receivers (c : EntryCall) (w : World H) :
  render_receivers (emitted c w) =
  if is_render_update c then repeat (jni_env (globals w)) 3 else [].
Proof. by_entry c w; reflexivity. Qed.

Lemma emitted_graphics_receivers (c : EntryCall) (w : World H) :
  is_UnityPluginLoad c = false ->
  graphics_receivers (emitted c w) =
  repeat (unity_graphics (globals w))
    ((if is_initialize c then 1 else 0)
     + (if is_UnityPluginUnload c then 1 else 0)).
Proof. intros Hc. by_entry c w; try reflexivity. discriminate Hc. Qed.

Lemma emitted_deliveries_and_logs (c : EntryCall) (w : World H) :
  (length (deliveries (emitted c w)) + count is_log (emitted c w))%nat =
  if is_send c then 1%nat else 0%nat.
Proof. by_entry c w; reflexivity. Qed.

Lemma emitted_no_renderer_query (c : EntryCall) (w : World H) :
  is_UnityPluginLoad c || is_initialize c = false ->
  count is_GetRenderer (emitted c w) = 0%nat.
Proof. intros Hc. by_entry c w; try reflexivity; discriminate Hc. Qed.

Lemma is_held_top (s : jstring) (p : cstr) (held : Held) :
  is_held p ((s, p) :: held) = true.
Proof. unfold is_held. cbn. rewrite Z.eqb_refl. reflexivity. Qed.

Lemma is_held_below (x : jstring * cstr) (p : cstr) (held : Held) :
  is_held p held = true -> is_held p (x :: held) = true.
Proof. unfold is_held. cbn. intros ->. apply orb_true_r. Qed.

(** The requests of one delivery against the buffers held, whatever the
    strings and whatever buffers the host hands out (equal ones included). *)
Lemma track_delivery (f : UnitySendMessageCallback) (env : JNIEnv_ptr)
  (t m msg : jstring) (p1 p2 p3 : cstr) (held : Held) :
  track_all
    [Called (GetStringUTFChars env t 0) p1;
     Called (GetStringUTFChars env m 0) p2;
     Called (GetStringUTFChars env msg 0) p3;
     Called (Deliver f p1 p2 p3) tt;
     Called (ReleaseStringUTFChars env t p1) tt;
     Called (ReleaseStringUTFChars env m p2) tt;
     Called (ReleaseStringUTFChars env msg p3) tt] held
  = Some held.
Proof.
  cbn [track_all track].
  rewrite is_held_top.
  rewrite (is_held_below _ _ _ (is_held_top _ _ _)).
  rewrite (is_held_below _ _ _ (is_held_below _ _ _ (is_held_top _ _ _))).
  cbn [andb].
  repeat (cbn [give_back]; unfold same_buffer; cbn [fst snd];
          repeat match goal with
                 | |- context [Z.eqb ?a ?b] =>
                     destruct (Z.eqb_spec a b); subst; cbn [andb]
                 end);
    first [reflexivity | congruence].
Qed.

(** One entry against the buffers held: no breach, and the holdings end as
    they began. *)
Lemma emitted_track (c : EntryCall) (w : World H) (held : Held) :
  track_all (emitted c w) held = Some held.
Proof. by_entry c w; try reflexivity. apply track_delivery. Qed.

(** ** Beyond the specification: whole runs *)

Lemma forallb_cons_true (p : EntryCall -> bool) (c : EntryCall)
  (cs : list EntryCall) :
  forallb p (c :: cs) = true -> p c = true /\ forallb p cs = true.
Proof. cbn [forallb]. intros Hcs. apply andb_true_iff. exact Hcs. Qed.

Lemma run_render_receivers (cs : list EntryCall) (w : World H) :
  forallb (fun c => negb (is_JNI_OnLoad c)) cs = true ->
  render_receivers (issued_since w (run cs w)) =
  repeat (jni_env (globals w)) (3 * occurrences is_render_update cs)
  /\ jni_env (globals (run cs w)) = jni_env (globals w)
  /\ java_vm (globals (run cs w)) = java_vm (globals w).
Proof.
  revert w. induction cs as [| c cs IH]; intros w Hcs.
  - rewrite issued_nil. repeat split.
  - apply forallb_cons_true in Hcs. destruct Hcs as [Hc Hcs].
    rewrite issued_cons, render_receivers_app, emitted_render_receivers.
    cbn [run].
    destruct (IH (execState (enter c) w) Hcs) as (IHr & IHe & IHv).
    rewrite IHr, IHe, IHv, occurrences_cons, Nat.mul_add_distr_l, repeat_app.
    rewrite enter_globals.
    destruct c as [vm reserved | ifs | | [] | env this f
                  | env this t m msg | env this | eventId];
      try discriminate Hc; cbn [is_render_update];
      try (repeat split; reflexivity).
    destruct (eventId =? 2); repeat split; reflexivity.
Qed.

Lemma enter_keeps_graphics (c : EntryCall) (w : World H) :
  is_UnityPluginLoad c = false ->
  unity_graphics (globals (execState (enter c) w))
  = unity_graphics (globals w)
  /\ unity_interfaces (globals (execState (enter c) w))
     = unity_interfaces (globals w).
Proof.
  intros Hc. rewrite enter_globals.
  destruct c as [vm reserved | ifs | | [] | env this f
                | env this t m msg | env this | eventId];
    try discriminate Hc; split; reflexivity.
Qed.

Lemma run_graphics_receivers (cs : list EntryCall) (w : World H) :
  forallb (fun c => negb (is_UnityPluginLoad c)) cs = true ->
  graphics_receivers (issued_since w (run cs w)) =
  repeat (unity_graphics (globals w))
    (occurrences is_initialize cs + occurrences is_UnityPluginUnload cs)
  /\ unity_graphics (globals (run cs w)) = unity_graphics (globals w)
  /\ unity_interfaces (globals (run cs w)) = unity_interfaces (globals w).
Proof.
  revert w. induction cs as [| c cs IH]; intros w Hcs.
  - rewrite issued_nil. repeat split.
  - apply forallb_cons_true in Hcs. destruct Hcs as [Hc Hcs].
    apply negb_true_iff in Hc.
    rewrite issued_cons, graphics_receivers_app,
      (emitted_graphics_receivers c w Hc).
    cbn [run].
    destruct (IH (execState (enter c) w) Hcs) as (IHr & IHg & IHi).
    destruct (enter_keeps_graphics c w Hc) as [Eg Ei].
    rewrite IHr, IHg, IHi, Eg, Ei, !occurrences_cons, <- repeat_app.
    split; [f_equal; lia | split; reflexivity].
Qed.

(** X1: over any sequence of entries, against any host and whatever buffers
    were held before, the shim keeps the discipline of UTF buffers: whatever
    it passes through the function pointer is a buffer obtained and not yet
    released, every release gives back a buffer it holds for that very
    string, and at the end it holds exactly what it held at the start. *)
Theorem runs_keep_buffer_discipline (cs : list EntryCall) (w : World H)
  (held : Held) :
  track_all (issued_since w (run cs w)) held = Some held.
Proof.
  revert w. induction cs as [| c cs IH]; intros w.
  - rewrite issued_nil. reflexivity.
  - rewrite issued_cons, track_all_app, emitted_track. apply IH.
Qed.

(** X2: over any sequence of entries, every delivery entry is answered by
    exactly one of two things, a call through the registered pointer or a
    log line, and nothing else calls through a pointer or logs: the number of
    calls through function pointers plus the number of log lines is the
    number of delivery entries. *)
Theorem every_send_delivers_or_logs (cs : list EntryCall) (w : World H) :
  (length (deliveries (issued_since w (run cs w)))
   + count is_log (issued_since w (run cs w)))%nat
  = sends cs.
Proof.
  revert w. induction cs as [| c cs IH]; intros w.
  - rewrite issued_nil. reflexivity.
  - rewrite issued_cons, deliveries_app, count_app, length_app.
    pose proof (emitted_deliveries_and_logs c w) as Hc.
    specialize (IH (execState (enter c) w)).
    unfold sends in *. cbn [filter].
    destruct (is_send c); cbn [length]; lia.
Qed.

(** X3: the render dispatcher works through the environment cached at load.
    After [JNI_OnLoad], over any sequence of entries with no further
    [JNI_OnLoad], every class look-up, method look-up and static call goes
    through the environment pointer the attach call left in [jni_env], three
    such requests per dispatch of code 2, whatever environment pointers the
    other entry points are handed; [jni_env] and [java_vm] stay as
    [JNI_OnLoad] set them. *)
Theorem render_requests_use_environment_of_JNI_OnLoad
  (vm : JavaVM_ptr) (reserved : ptr) (cs : list EntryCall) (w : World H) :
  forallb (fun c => negb (is_JNI_OnLoad c)) cs = true ->
  let loaded_env :=
    fst (answer (AttachCurrentThread vm (jni_env (globals w)) 0) (host w)) in
  let w1 := execState (JNI_OnLoad vm reserved) w in
  render_receivers (issued_since w1 (run cs w1)) =
  repeat loaded_env (3 * occurrences is_render_update cs)
  /\ jni_env (globals (run cs w1)) = loaded_env
  /\ java_vm (globals (run cs w1)) = vm.
Proof.
  intros Hcs loaded_env w1.
  destruct (run_render_receivers cs w1 Hcs) as (Hr & He & Hv).
  rewrite Hr, He, Hv. subst loaded_env w1.
  unfold execState. rewrite JNI_OnLoad_run. repeat split.
Qed.


(** X5: device requests go through the interface obtained at plugin load, and
    an unload does not end that.  After [UnityPluginLoad], over any sequence
    of entries with no further [UnityPluginLoad], every renderer query and
    every unregistration goes through the graphics interface the load
    obtained, one request per initialize event and one per unload, also for
    initialize events that come after an unload; [unity_graphics] and
    [unity_interfaces] stay as the load set them. *)
Theorem device_requests_use_interface_of_UnityPluginLoad
  (unityInterfaces : IUnityInterfaces_ptr) (cs : list EntryCall)
  (w : World H) :
  forallb (fun c => negb (is_UnityPluginLoad c)) cs = true ->
  let g := answer (Get_IUnityGraphics unityInterfaces) (host w) in
  let w1 := execState (UnityPluginLoad unityInterfaces) w in
  graphics_receivers (issued_since w1 (run cs w1)) =
  repeat g (occurrences is_initialize cs
            + occurrences is_UnityPluginUnload cs)
  /\ unity_graphics (globals (run cs w1)) = g
  /\ unity_interfaces (globals (run cs w1)) = unityInterfaces.
Proof.
  intros Hcs g w1.
  destruct (run_graphics_receivers cs w1 Hcs) as (Hr & Hg & Hi).
  rewrite Hr, Hg, Hi. subst g w1.
  pose proof (enter_globals (Enter_UnityPluginLoad unityInterfaces) w) as E.
  cbn [enter] in E. rewrite E. repeat split.
Qed.

(** X6: without a plugin load and without an initialize event the renderer is
    never queried and [unity_renderer_type] stays the null marker: from a
    world where it is [kUnityGfxRendererNull] (as static initialisation
    leaves it, or after a shutdown event), over any sequence of the other
    entries, it still is, and no renderer query has been made. *)
Theorem renderer_stays_null_without_initialize
  (cs : list EntryCall) (w : World H) :
  unity_renderer_type (globals w) = kUnityGfxRendererNull hdr ->
  forallb (fun c => negb (is_UnityPluginLoad c || is_initialize c)) cs
  = true ->
  unity_renderer_type (globals (run cs w)) = kUnityGfxRendererNull hdr
  /\ count is_GetRenderer (issued_since w (run cs w)) = 0%nat.
Proof.
  revert w. induction cs as [| c cs IH]; intros w Hnull Hcs.
  - rewrite issued_nil. split; [exact Hnull | reflexivity].
  - apply forallb_cons_true in Hcs. destruct Hcs as [Hc Hcs].
    apply negb_true_iff in Hc.
    rewrite issued_cons, count_app, (emitted_no_renderer_query c w Hc).
    cbn [run]. apply IH; [| exact Hcs].
    rewrite enter_globals.
    destruct c as [vm reserved | ifs | | [] | env this f
                  | env this t m msg | env this | eventId];
      try discriminate Hc; first [exact Hnull | reflexivity].
Qed.

(** X7: unload, the two reset events, delivery, the accessor and the render
    dispatcher write no file-scope variable: over any sequence made of those
    entries only, all six variables end as they began. *)
Theorem read_only_entries_keep_variables
  (cs : list EntryCall) (w : World H) :
  forallb is_read_only cs = true ->
  globals (run cs w) = globals w.
Proof.
  revert w. induction cs as [| c cs IH]; intros w Hcs; [reflexivity |].
  apply forallb_cons_true in Hcs. destruct Hcs as [Hc Hcs].
  cbn [run]. rewrite (IH _ Hcs), enter_globals.
  destruct c as [vm reserved | ifs | | [] | env this f
                | env this t m msg | env this | eventId];
    try discriminate Hc; reflexivity.
Qed.

End Shim.

(** ** The shim on the device *)

(** On the device, a delivery with a deliverer registered reaches the inbox
    once, with the three buffers handed out for the three strings, all three
    still live at that moment, and leaves no buffer live on return. *)
Example device_delivery_reaches_inbox :
  let w' :=
    execState
      (Java_com_ground_up_software_bridge_CBridgePlugin_UnitySendMessage
         android_headers Device device_respond 65 7 101 102 103)
      device_registered in
  inbox (host w') = [(28672, 32768, 32784, 32800, [32800; 32784; 32768])]
  /\ live (host w') = []
  /\ globals w' = globals device_registered.
Proof. repeat split. Qed.

(** On the device, a whole life of the library: load, a delivery too early,
    plugin load, registration, delivery, render events, registration of
    null, delivery, shutdown, unload.  One delivery reaches the inbox, two
    are logged, the method is called once for the one event code 2, and the
    renderer ends as the null marker. *)
Example device_life :
  let w' :=
    run android_headers device_addresses Device device_respond
      [Enter_JNI_OnLoad 64 0;
       Enter_UnitySendMessage 65 7 101 102 103;
       Enter_UnityPluginLoad 512;
       Enter_SetUnitySendMessageCallback 65 7 28672;
       Enter_UnitySendMessage 65 7 101 102 103;
       Enter_RenderEventFunc 0;
       Enter_RenderEventFunc 2;
       Enter_RenderEventFunc 7;
       Enter_SetUnitySendMessageCallback 65 7 0;
       Enter_UnitySendMessage 65 7 104 105 106;
       Enter_OnGraphicsDeviceEvent kUnityGfxDeviceEventShutdown;
       Enter_UnityPluginUnload]
      device_unregistered in
  globals w' =
    {| java_vm := 64; jni_env := 65;
       unity_interfaces := 512; unity_graphics := 520;
       unity_renderer_type := 4;
       unitySendMessageCallback := 0 |}
  /\ deliveries (history w') = [28672]
  /\ count is_log (history w') = 2%nat
  /\ count is_CallStaticVoidMethod (history w') = 1%nat
  /\ length (history w') = 17%nat
  /\ live (host w') = [].
Proof. repeat split. Qed.

(** The delivery theorem at work on the device, deliverer at 28672. *)
Lemma UnitySendMessage_delivers_once_and_releases_witness :
  unitySendMessageCallback (globals device_registered) <> NULL
  /\ exists (target method message : cstr) (h' : Device),
       let evs :=
         [Called (GetStringUTFChars 65 101 0) target;
          Called (GetStringUTFChars 65 102 0) method;
          Called (GetStringUTFChars 65 103 0) message;
          Called
            (Deliver (unitySendMessageCallback (globals device_registered))
               target method message) tt;
          Called (ReleaseStringUTFChars 65 101 target) tt;
          Called (ReleaseStringUTFChars 65 102 method) tt;
          Called (ReleaseStringUTFChars 65 103 message) tt] in
       runState
         (Java_com_ground_up_software_bridge_CBridgePlugin_UnitySendMessage
            android_headers Device device_respond 65 7 101 102 103)
         device_registered
       = (tt,
          {| globals := globals device_registered;
             host := h';
             history := history device_registered ++ evs |})
       /\ answered Device device_respond (host device_registered) evs h'
       /\ deliveries evs
          = [unitySendMessageCallback (globals device_registered)].
Proof.
  split.
  - cbv. discriminate.
  - apply (UnitySendMessage_delivers_once_and_releases
             android_headers Device device_respond 65 7 101 102 103
             device_registered).
    cbv. discriminate.
Defined.

(** The no-deliverer theorem at work on the freshly mapped device. *)
Lemma UnitySendMessage_without_deliverer_only_logs_witness :
  unitySendMessageCallback (globals device_unregistered) = NULL
  /\ exists (r : Z) (h' : Device),
       let evs :=
         [Called
            (android_log_print (ANDROID_LOG_DEBUG android_headers) "Bridge"
               "trace: %s (%i) Bridge.cpp: Java_com_ground_up_software_bridge_CBridgePlugin_GetRenderEventFunc: called without unitySendMessageCallback: %d"
               [LogStr
                  "Java_com_ground_up_software_bridge_CBridgePlugin_UnitySendMessage";
                LogInt 139;
                LogInt 0]) r] in
       runState
         (Java_com_ground_up_software_bridge_CBridgePlugin_UnitySendMessage
            android_headers Device device_respond 65 7 101 102 103)
         device_unregistered
       = (tt,
          {| globals := globals device_unregistered;
             host := h';
             history := history device_unregistered ++ evs |})
       /\ answered Device device_respond (host device_unregistered) evs h'
       /\ deliveries evs = []
       /\ count is_log evs = 1%nat.
Proof.
  split.
  - reflexivity.
  - apply (UnitySendMessage_without_deliverer_only_logs
             android_headers Device device_respond 65 7 101 102 103
             device_unregistered).
    reflexivity.
Defined.

(** Last write wins on the device: 20480 is registered, then 24576, and both
    deliveries of the session go through 24576. *)
Lemma SetUnitySendMessageCallback_last_write_wins_witness :
  forallb (fun c => negb (is_registration c)) device_session = true
  /\ deliveries
       (issued_since Device
          (execState
             (Java_com_ground_up_software_bridge_CBridgePlugin_SetUnitySendMessageCallback
                Device 65 7 24576)
             (execState
                (Java_com_ground_up_software_bridge_CBridgePlugin_SetUnitySendMessageCallback
                   Device 65 7 20480) device_unregistered))
          (run android_headers device_addresses Device device_respond
             device_session
             (execState
                (Java_com_ground_up_software_bridge_CBridgePlugin_SetUnitySendMessageCallback
                   Device 65 7 24576)
                (execState
                   (Java_com_ground_up_software_bridge_CBridgePlugin_SetUnitySendMessageCallback
                      Device 65 7 20480) device_unregistered))))
     = [24576; 24576].
Proof.
  split.
  - reflexivity.
  - exact (proj2 (proj2 (proj2
      (SetUnitySendMessageCallback_last_write_wins
         android_headers device_addresses Device device_respond
         65 65 7 7 20480 24576
         device_session device_unregistered eq_refl)))).
Defined.

(** After loading with the virtual machine at 64 the device's environment is
    65; both render updates of the Android session go through it, although
    one delivery of that session is handed environment 66. *)
Lemma render_requests_use_environment_of_JNI_OnLoad_witness :
  forallb (fun c => negb (is_JNI_OnLoad c)) device_android_session = true
  /\ render_receivers
       (issued_since Device
          (execState
             (JNI_OnLoad android_headers Device device_respond 64 0)
             device_unregistered)
          (run android_headers device_addresses Device device_respond
             device_android_session
             (execState
                (JNI_OnLoad android_headers Device device_respond 64 0)
                device_unregistered)))
     = [65; 65; 65; 65; 65; 65].
Proof.
  split.
  - reflexivity.
  - exact (proj1
      (render_requests_use_environment_of_JNI_OnLoad
         android_headers device_addresses Device device_respond
         64 0 device_android_session device_unregistered eq_refl)).
Defined.


(** Plugin load with interfaces at 512 obtains the graphics interface 520 on
    the device; the unload and the two initialize events of the engine
    session, both after the unload, go through 520. *)
Lemma device_requests_use_interface_of_UnityPluginLoad_witness :
  forallb (fun c => negb (is_UnityPluginLoad c)) device_engine_session = true
  /\ graphics_receivers
       (issued_since Device
          (execState
             (UnityPluginLoad android_headers Device device_respond 512)
             device_registered)
          (run android_headers device_addresses Device device_respond
             device_engine_session
             (execState
                (UnityPluginLoad android_headers Device device_respond 512)
                device_registered)))
     = [520; 520; 520].
Proof.
  split.
  - reflexivity.
  - exact (proj1
      (device_requests_use_interface_of_UnityPluginLoad
         android_headers device_addresses Device device_respond
         512 device_engine_session device_registered eq_refl)).
Defined.

(** The Android session on the freshly mapped device: the renderer is the
    null marker before and after, and the device is never asked for it. *)
Lemma renderer_stays_null_without_initialize_witness :
  unity_renderer_type (globals device_unregistered)
  = kUnityGfxRendererNull android_headers
  /\ forallb (fun c => negb (is_UnityPluginLoad c || is_initialize c))
       device_android_session = true
  /\ unity_renderer_type
       (globals
          (run android_headers device_addresses Device device_respond
             device_android_session device_unregistered))
     = kUnityGfxRendererNull android_headers
  /\ count is_GetRenderer
       (issued_since Device device_unregistered
          (run android_headers device_addresses Device device_respond
             device_android_session device_unregistered))
     = 0%nat.
Proof.
  split; [reflexivity | split; [reflexivity |]].
  exact (renderer_stays_null_without_initialize
           android_headers device_addresses Device device_respond
           device_android_session device_unregistered eq_refl eq_refl).
Defined.

(** The quiet session leaves the variables of the registered device alone. *)
Lemma read_only_entries_keep_variables_witness :
  forallb is_read_only device_quiet_session = true
  /\ globals
       (run android_headers device_addresses Device device_respond
          device_quiet_session device_registered)
     = globals device_registered.
Proof.
  split.
  - reflexivity.
  - exact (read_only_entries_keep_variables
             android_headers device_addresses Device device_respond
             device_quiet_session device_registered eq_refl).
Defined.
